(** * ChartTable: the home page's chart card list

    A shallow embedding of
    [superset-frontend/src/views/CRUD/welcome/ChartTable.tsx].

    The component is a React function component.  Its render function is
    pure in the props and in the hook state; everything that changes state
    does so through a setter called from an event handler, from the effect
    registered with [useEffect], or from a promise callback of one of the
    hooks.  The embedding therefore consists of

    - the pure part of the render function ([initialFilter],
      [filteredExamples], [getFilters], [menuTabs], [render]);
    - the handlers and the effect as state transformers ([Action]);
    - a step function [step] that runs one event of the page (a click on
      a tab, the answer to a fetch, an export and its completion, the edit
      modal) against the component, with React's rule that the effect is
      re-run exactly when its dependency [chartFilter] has changed;
    - a function [react] that runs the same callbacks one at a time, the
      page on the screen lagging behind the state until the next render.

    JavaScript objects are finite maps from property names to values;
    the browser's local storage is a finite map as well.

    Left out, because no statement below is about them: the toasts, the
    permission check and bulk-select flag that are only handed on to the
    cards, the favorite status hook, and the two buttons of the submenu
    (they navigate away from the page). *)

From Stdlib Require Import ZArith String List Bool Lia.
From Stdlib Require Import DecimalString DecimalZ.
From stdpp Require Import base option list strings gmap.

Local Open Scope string_scope.
Local Open Scope list_scope.

(** ** JavaScript values and objects *)

Inductive JsVal : Type :=
| JUndefined
| JBool (b : bool)
| JNum (n : Z)
| JStr (s : string).

#[global] Instance JsVal_eq_dec : EqDecision JsVal.
Proof. solve_decision. Defined.

(** A plain object: property name to value.  [mine], [examples] and the
    resource collection all hold such objects. *)
Abbreviation JsObject := (gmap string JsVal).
Abbreviation Chart := (gmap string JsVal).

(** [o.k]: reading an absent property gives [undefined]. *)
Definition prop (k : string) (o : JsObject) : JsVal :=
  default JUndefined (o !! k).

(** ['k' in o] *)
Definition has_key (k : string) (o : JsObject) : bool :=
  bool_decide (is_Some (o !! k)).

(** [a === b] on values of the same model type. *)
Definition strict_eq (a b : JsVal) : bool := bool_decide (a = b).

(** [`${n}`] for an integer number. *)
Definition string_of_Z (n : Z) : string :=
  NilZero.string_of_int (Z.to_int n).

(** ** Constants of the module *)

Definition PAGE_SIZE : Z := 3.

(** Modelled from the spec: the enumeration [TableTabTypes] of
    [src/views/CRUD/types] is not among the sources.  The spec gives the
    filter tab as the enumeration {Favorite, Mine, Examples} and has the
    handlers write "the tab name" to storage, so each member's value is
    its tab's name; the component itself compares the state it set from
    these members with the literals ['Favorite'] and ['Mine']. *)
Module TableTabTypes.
Definition FAVORITE : string := "Favorite".
Definition MINE : string := "Mine".
Definition EXAMPLES : string := "Examples".
End TableTabTypes.

(** Modelled from the spec: the key constant of
    [src/views/CRUD/storageKeys] is not among the sources; the spec only
    says that one fixed key is used for the chart filter tab.  No proof
    below depends on how the key is spelled. *)
Definition HOMEPAGE_CHART_FILTER : string := "homepage_chart_filter".

(** ** Props *)

Record User : Type := { userId : Z }.

Record ChartTableProps : Type := {
  user : option User;                  (* user?: User *)
  mine : list JsObject;                (* mine: Array<any> *)
  showThumbnails : bool;
  examples : option (list JsObject)    (* examples?: Array<object> *)
}.

(** ** The request handed to [fetchData] *)

Record SortColumn : Type := { sort_id : string; desc : bool }.

Record FilterValue : Type := {
  filter_id : string;
  operator : string;
  value : JsVal
}.

Record FetchDataConfig : Type := {
  pageIndex : Z;
  pageSize : Z;
  sortBy : list SortColumn;
  filters : list FilterValue
}.

#[global] Instance SortColumn_eq_dec : EqDecision SortColumn.
Proof. solve_decision. Defined.
#[global] Instance FilterValue_eq_dec : EqDecision FilterValue.
Proof. solve_decision. Defined.
#[global] Instance FetchDataConfig_eq_dec : EqDecision FetchDataConfig.
Proof. solve_decision. Defined.

(** ** Local storage *)

(** Modelled from the spec: [getFromLocalStorage] and [setInLocalStorage]
    of [src/utils/localStorageHelpers] are not among the sources.  The
    spec's contract is a key-value persistence with [get(key) -> value |
    null] and [set(key, value) -> void]; the second argument of
    [getFromLocalStorage] is the value returned when there is none. *)
Abbreviation Storage := (gmap string string).

Definition getFromLocalStorage
    (key : string) (defaultValue : option string) (st : Storage)
  : option string :=
  match st !! key with
  | Some v => Some v
  | None => defaultValue
  end.

Definition storage_set (key v : string) (st : Storage) : Storage :=
  <[key := v]> st.

(** ** The pure part of the render function *)

(** Truthiness of a value that is a string or [null]: [null] and the
    empty string are falsy. *)
Definition truthy (v : option string) : bool :=
  match v with
  | Some s => negb (String.eqb s "")
  | None => false
  end.

(** Lines 68-73.
<<
  let initialFilter = filterStore || TableTabTypes.EXAMPLES;
  if (!examples && filterStore === TableTabTypes.EXAMPLES) {
    initialFilter = TableTabTypes.MINE;
  }
>>
    An array, even an empty one, is truthy: [!examples] holds only when
    the prop was not supplied. *)
Definition initialFilter
    (filterStore : option string) (examples : option (list JsObject))
  : string :=
  let initialFilter :=
    if truthy filterStore then default TableTabTypes.EXAMPLES filterStore
    else TableTabTypes.EXAMPLES in
  if negb (bool_decide (is_Some examples))
     && bool_decide (filterStore = Some TableTabTypes.EXAMPLES)
  then TableTabTypes.MINE
  else initialFilter.

(** Line 75: [filter(examples, obj => 'viz_type' in obj)].  lodash's
    [filter] of [undefined] is the empty array. *)
Definition filteredExamples (examples : option (list JsObject))
  : list JsObject :=
  List.filter (has_key "viz_type") (default [] examples).

(** Line 88: the default collection handed to [useListViewResource]. *)
Definition defaultCollection
    (initialFilter : string) (p : ChartTableProps) : list JsObject :=
  if String.eqb initialFilter "Mine" then mine p
  else filteredExamples (examples p).

(** [`${user?.userId}`] *)
Definition userId_template (u : option User) : string :=
  match u with
  | Some u => string_of_Z (userId u)
  | None => "undefined"
  end.

(** Lines 125-142. *)
Definition getFilters (p : ChartTableProps) (filterName : string)
  : list FilterValue :=
  if String.eqb filterName "Mine" then
    [ {| filter_id := "created_by";
         operator := "rel_o_m";
         value := JStr (userId_template (user p)) |} ]
  else if String.eqb filterName "Favorite" then
    [ {| filter_id := "id";
         operator := "chart_is_favorite";
         value := JBool true |} ]
  else [].

(** Lines 174-185: the argument [getData] passes to [fetchData]. *)
Definition getData_config (p : ChartTableProps) (filter : string)
  : FetchDataConfig :=
  {| pageIndex := 0;
     pageSize := PAGE_SIZE;
     sortBy := [ {| sort_id := "changed_on_delta_humanized"; desc := true |} ];
     filters := getFilters p filter |}.

(** ** Component state *)

(** Everything a render reads and a handler writes: the three [useState]
    cells of the component, the state of the two hooks it uses, and the
    part of the outside world its handlers talk to. *)
Record State : Type := {
  (* useState, lines 106-108 *)
  chartFilter : string;
  preparingExport : bool;
  loaded : bool;
  (* useListViewResource: state.loading, state.resourceCollection *)
  loading : bool;
  charts : list Chart;
  (* useChartEditModal *)
  sliceCurrentlyEditing : option Chart;
  (* the browser's local storage *)
  storage : Storage;
  (* every call of fetchData so far, oldest first *)
  requested : list FetchDataConfig;
  (* positions in [requested] of the calls that have no answer yet *)
  inflight : list nat;
  (* position in [requested] of the call whose answer [charts] is;
     [None] while [charts] is still the default collection *)
  shown : option nat;
  (* id lists handed to handleResourceExport whose callback is due *)
  exports : list (list JsVal)
}.

Definition Action : Type := State → State.

Definition andThen (a b : Action) : Action := λ s, b (a s).
Infix ">>" := andThen (at level 61, left associativity).

Definition skip : Action := λ s, s.

Definition setChartFilter (v : string) : Action := λ s,
  {| chartFilter := v; preparingExport := preparingExport s;
     loaded := loaded s; loading := loading s; charts := charts s;
     sliceCurrentlyEditing := sliceCurrentlyEditing s;
     storage := storage s; requested := requested s;
     inflight := inflight s; shown := shown s; exports := exports s |}.

Definition setPreparingExport (v : bool) : Action := λ s,
  {| chartFilter := chartFilter s; preparingExport := v;
     loaded := loaded s; loading := loading s; charts := charts s;
     sliceCurrentlyEditing := sliceCurrentlyEditing s;
     storage := storage s; requested := requested s;
     inflight := inflight s; shown := shown s; exports := exports s |}.

Definition setLoaded (v : bool) : Action := λ s,
  {| chartFilter := chartFilter s; preparingExport := preparingExport s;
     loaded := v; loading := loading s; charts := charts s;
     sliceCurrentlyEditing := sliceCurrentlyEditing s;
     storage := storage s; requested := requested s;
     inflight := inflight s; shown := shown s; exports := exports s |}.

(** [setResourceCollection], named [setCharts] at line 79. *)
Definition setCharts (v : list Chart) : Action := λ s,
  {| chartFilter := chartFilter s; preparingExport := preparingExport s;
     loaded := loaded s; loading := loading s; charts := v;
     sliceCurrentlyEditing := sliceCurrentlyEditing s;
     storage := storage s; requested := requested s;
     inflight := inflight s; shown := shown s; exports := exports s |}.

Definition setSliceCurrentlyEditing (v : option Chart) : Action := λ s,
  {| chartFilter := chartFilter s; preparingExport := preparingExport s;
     loaded := loaded s; loading := loading s; charts := charts s;
     sliceCurrentlyEditing := v;
     storage := storage s; requested := requested s;
     inflight := inflight s; shown := shown s; exports := exports s |}.

Definition setInLocalStorage (key v : string) : Action := λ s,
  {| chartFilter := chartFilter s; preparingExport := preparingExport s;
     loaded := loaded s; loading := loading s; charts := charts s;
     sliceCurrentlyEditing := sliceCurrentlyEditing s;
     storage := storage_set key v (storage s); requested := requested s;
     inflight := inflight s; shown := shown s; exports := exports s |}.

(** ** The hooks and collaborators *)

(** Modelled from the spec: [useListViewResource] of
    [src/views/CRUD/hooks] is not among the sources.  From the spec: the
    loader "resolves to a collection of Chart plus a loading flag"; the
    loading indicator is up "while the initial/filter-change fetch is
    outstanding"; "on failure" it "leaves the previous collection
    untouched" and the "loading flag [is] cleared"; and there is "no
    explicit cancellation of in-flight fetches", an answer overwrites
    whatever is there.  So: a call is recorded and raises [loading]; its
    answer, whenever it comes, lowers [loading], and a successful one
    becomes the collection. *)
Definition fetchData (cfg : FetchDataConfig) : Action := λ s,
  {| chartFilter := chartFilter s; preparingExport := preparingExport s;
     loaded := loaded s; loading := true; charts := charts s;
     sliceCurrentlyEditing := sliceCurrentlyEditing s;
     storage := storage s; requested := requested s ++ [cfg];
     inflight := inflight s ++ [length (requested s)];
     shown := shown s; exports := exports s |}.

(** The promise callbacks of [fetchData] for the [k]-th call in flight:
    [result] is the page of charts, or [None] when the request failed. *)
Definition fetchData_settled (k : nat) (result : option (list Chart))
  : Action := λ s,
  match inflight s !! k with
  | None => s
  | Some call =>
    {| chartFilter := chartFilter s; preparingExport := preparingExport s;
       loaded := loaded s; loading := false;
       charts := default (charts s) result;
       sliceCurrentlyEditing := sliceCurrentlyEditing s;
       storage := storage s; requested := requested s;
       inflight := delete k (inflight s);
       shown := match result with Some _ => Some call | None => shown s end;
       exports := exports s |}
  end.

(** Modelled from the spec: [handleResourceExport] of [src/utils/export]
    is not among the sources.  From the spec: "fire-and-forget with a
    completion callback"; the callback runs later, on completion, be it
    success or failure.  The call itself only registers the export. *)
Definition handleResourceExport (resource : string) (ids : list JsVal)
  : Action := λ s,
  {| chartFilter := chartFilter s; preparingExport := preparingExport s;
     loaded := loaded s; loading := loading s; charts := charts s;
     sliceCurrentlyEditing := sliceCurrentlyEditing s;
     storage := storage s; requested := requested s;
     inflight := inflight s; shown := shown s;
     exports := exports s ++ [ids] |}.

(** The collaborator is done with the oldest export: the export leaves
    the list and its callback is to be run. *)
Definition export_completed : Action := λ s,
  {| chartFilter := chartFilter s; preparingExport := preparingExport s;
     loaded := loaded s; loading := loading s; charts := charts s;
     sliceCurrentlyEditing := sliceCurrentlyEditing s;
     storage := storage s; requested := requested s;
     inflight := inflight s; shown := shown s;
     exports := tail (exports s) |}.

(** Modelled from the spec: [useChartEditModal] of [src/views/CRUD/hooks]
    is not among the sources.  From the spec, section 4.4: states
    {closed, editing(chart)}; "open(chart) transitions to editing;
    save(updatedChart) replaces the matching entry in the chart
    collection by id and transitions to closed; close() transitions to
    closed without mutation". *)
Definition openChartEditModal (chart : Chart) : Action :=
  setSliceCurrentlyEditing (Some chart).

Definition closeChartEditModal : Action :=
  setSliceCurrentlyEditing None.

Definition replace_by_id (edits : Chart) (chart : Chart) : Chart :=
  if strict_eq (prop "id" chart) (prop "id" edits) then edits else chart.

Definition handleChartUpdated (edits : Chart) : Action := λ s,
  (setCharts (map (replace_by_id edits) (charts s))
   >> setSliceCurrentlyEditing None) s.

(** ** Handlers, effect and view of the component *)

(** Lines 174-185. *)
Definition getData (p : ChartTableProps) (filter : string) : Action :=
  fetchData (getData_config p filter).

(** Lines 110-115, the body of the effect.  It reads [loaded] and
    [chartFilter] of the render that registered it.
<<
    if (loaded || chartFilter === 'Favorite') {
      getData(chartFilter);
    }
    setLoaded(true);
>> *)
Definition chartFilter_effect (p : ChartTableProps) : Action := λ s,
  ((if loaded s || String.eqb (chartFilter s) "Favorite"
    then getData p (chartFilter s)
    else skip)
   >> setLoaded true) s.

(** Lines 117-123. *)
Definition handleBulkChartExport (chartsToExport : list Chart) : Action :=
  let ids := map (prop "id") chartsToExport in
  handleResourceExport "chart" ids
  >> setPreparingExport true.

(** The callback handed to [handleResourceExport], lines 119-121. *)
Definition export_callback : Action := setPreparingExport false.

(** [t] of [@superset-ui/core] with no translation loaded. *)
Definition t (s : string) : string := s.

Record MenuTab : Type := {
  name : string;
  label : string;
  onClick : Action
}.

(** Lines 144-172. *)
Definition menuTabs (examples : option (list JsObject)) : list MenuTab :=
  let menuTabs :=
    [ {| name := "Favorite";
         label := t "Favorite";
         onClick :=
           setChartFilter TableTabTypes.FAVORITE
           >> setInLocalStorage HOMEPAGE_CHART_FILTER TableTabTypes.FAVORITE |};
      {| name := "Mine";
         label := t "Mine";
         onClick :=
           setChartFilter TableTabTypes.MINE
           >> setInLocalStorage HOMEPAGE_CHART_FILTER TableTabTypes.MINE |} ] in
  if bool_decide (is_Some examples) then
    menuTabs ++
    [ {| name := "Examples";
         label := t "Examples";
         onClick :=
           setChartFilter TableTabTypes.EXAMPLES
           >> setInLocalStorage HOMEPAGE_CHART_FILTER TableTabTypes.EXAMPLES |} ]
  else menuTabs.

(** [`${v}`] *)
Definition template (v : JsVal) : string :=
  match v with
  | JUndefined => "undefined"
  | JBool true => "true"
  | JBool false => "false"
  | JNum n => string_of_Z n
  | JStr s => s
  end.

(** The data a card is rendered from, lines 232-247; the callbacks and
    hook values handed on to it are left out. *)
Record ChartCardProps : Type := {
  card_key : string;
  card_chart : Chart;
  card_chartFilter : string;
  card_userId : option Z;
  card_showThumbnails : bool
}.

#[local] Unset Elimination Schemes.
Inductive Element : Type :=
| Loading (position : option string)
| PropertiesModal (slice : Chart)
| SubMenu (activeChild : string) (tabs : list string)
| CardContainer (cards : list ChartCardProps)
| EmptyState (tableName tab : string)
| ErrorBoundary (children : list Element).
#[local] Set Elimination Schemes.

Definition card (p : ChartTableProps) (s : State) (e : Chart)
  : ChartCardProps :=
  {| card_key := template (prop "id" e);
     card_chart := e;
     card_chartFilter := chartFilter s;
     card_userId := userId <$> user p;
     card_showThumbnails := showThumbnails p |}.

(** Lines 187-255.  [c && <X/>] renders [X] or nothing. *)
Definition render (p : ChartTableProps) (s : State) : Element :=
  if loading s then Loading (Some "inline")
  else
    ErrorBoundary
      ((match sliceCurrentlyEditing s with
        | Some slice => [PropertiesModal slice]
        | None => []
        end)
       ++ [SubMenu (chartFilter s) (map name (menuTabs (examples p)))]
       ++ [match charts s with
           | _ :: _ => CardContainer (map (card p s) (charts s))
           | [] => EmptyState "CHARTS" (chartFilter s)
           end]
       ++ (if preparingExport s then [Loading None] else [])).

(** What the view offers to the user. *)
Definition tabs_rendered (s : State) : bool := negb (loading s).

Definition cards_rendered (s : State) : bool :=
  negb (loading s) && match charts s with [] => false | _ :: _ => true end.

Definition modal_rendered (s : State) : bool :=
  negb (loading s) && bool_decide (is_Some (sliceCurrentlyEditing s)).

(** ** Running the component *)

(** After a handler has run the component renders again, and React runs
    the effect of line 110 if and only if its dependency list,
    [[chartFilter]], differs from that of the render before. *)
Definition rerender (p : ChartTableProps) (before : State) : Action := λ s,
  if String.eqb (chartFilter s) (chartFilter before) then s
  else chartFilter_effect p s.

(** Mounting: the first render reads the storage and initialises the
    state cells and hooks (lines 67-108); the effect runs once after it. *)
Definition mount (p : ChartTableProps) (st : Storage) : State :=
  let filterStore := getFromLocalStorage HOMEPAGE_CHART_FILTER None st in
  let initialFilter := initialFilter filterStore (examples p) in
  chartFilter_effect p
    {| chartFilter := initialFilter;
       preparingExport := false;
       loaded := false;
       loading := false;
       charts := defaultCollection initialFilter p;
       sliceCurrentlyEditing := None;
       storage := st;
       requested := [];
       inflight := [];
       shown := None;
       exports := [] |}.

Inductive Event : Type :=
| ClickTab (tab : string)
| FetchSettled (k : nat) (result : option (list Chart))
| BulkExport (chartsToExport : list Chart)
| ExportCompleted
| OpenEdit (chart : Chart)
| SaveEdit (edits : Chart)
| CloseEdit.

(** One event against the mounted component, on a settled page: the
    render and the effect that follow one event have run, and the page
    is up to date, before the next event is looked at.  A handler can
    only be invoked through an element that is on the page; an event
    with nothing to act on changes nothing.  What happens when an event
    comes in before the page has settled is the matter of [react]
    below, which runs the same callbacks one at a time. *)
Definition step (p : ChartTableProps) (e : Event) : Action := λ s,
  match e with
  | ClickTab tab =>
    if tabs_rendered s then
      match find (λ m, String.eqb (name m) tab) (menuTabs (examples p)) with
      | Some m => rerender p s (onClick m s)
      | None => s
      end
    else s
  | FetchSettled k result => rerender p s (fetchData_settled k result s)
  | BulkExport chartsToExport =>
    if cards_rendered s
    then rerender p s (handleBulkChartExport chartsToExport s)
    else s
  | ExportCompleted =>
    match exports s with
    | _ :: _ => rerender p s ((export_completed >> export_callback) s)
    | [] => s
    end
  | OpenEdit chart =>
    if cards_rendered s then rerender p s (openChartEditModal chart s) else s
  | SaveEdit edits =>
    if modal_rendered s then rerender p s (handleChartUpdated edits s) else s
  | CloseEdit =>
    if modal_rendered s then rerender p s (closeChartEditModal s) else s
  end.

Definition run (p : ChartTableProps) (es : list Event) : Action := λ s,
  fold_left (λ s e, step p e s) es s.

(** ** The callbacks one at a time *)

(** The state of the first render, before the effect has run. *)
Definition first_render (p : ChartTableProps) (st : Storage) : State :=
  let filterStore := getFromLocalStorage HOMEPAGE_CHART_FILTER None st in
  let initialFilter := initialFilter filterStore (examples p) in
  {| chartFilter := initialFilter;
     preparingExport := false;
     loaded := false;
     loading := false;
     charts := defaultCollection initialFilter p;
     sliceCurrentlyEditing := None;
     storage := st;
     requested := [];
     inflight := [];
     shown := None;
     exports := [] |}.

(** The callbacks of the source are separate: a tab's [onClick] (lines
    148-170) sets the state cells; a render reads them (lines 67-255),
    puts its page on the screen and, if [chartFilter] is not that of the
    render before, runs the effect (lines 110-115); the promise callbacks
    of [fetchData] set the state of the hook.  Between a change of state
    and the next render the page on the screen is still that of the
    render before, tabs included. *)
Record Mounted : Type := {
  (* the state cells and hooks as the setters have left them *)
  current : State;
  (* the state the page on the screen was rendered from *)
  onscreen : State
}.

Inductive Callback : Type :=
| Click (tab : string)
| Render
| Answer (k : nat) (result : option (list Chart)).

Definition react (p : ChartTableProps) (c : Callback) (m : Mounted)
  : Mounted :=
  match c with
  | Click tab =>
    if tabs_rendered (onscreen m) then
      match find (λ t, String.eqb (name t) tab) (menuTabs (examples p)) with
      | Some t => {| current := onClick t (current m);
                     onscreen := onscreen m |}
      | None => m
      end
    else m
  | Render =>
    {| current := rerender p (onscreen m) (current m);
       onscreen := current m |}
  | Answer k result =>
    {| current := fetchData_settled k result (current m);
       onscreen := onscreen m |}
  end.

Definition mounted (p : ChartTableProps) (st : Storage) : Mounted :=
  {| current := chartFilter_effect p (first_render p st);
     onscreen := first_render p st |}.

Definition play (p : ChartTableProps) (cs : list Callback) (m : Mounted)
  : Mounted :=
  fold_left (λ m c, react p c m) cs m.

#[global] Instance Event_eq_dec : EqDecision Event.
Proof. solve_decision. Defined.

(** ** Vocabulary of the statements *)

(** A tab can be clicked when the view has a tab of that name. *)
Definition offered (p : ChartTableProps) (tab : string) : bool :=
  match find (λ m, String.eqb (name m) tab) (menuTabs (examples p)) with
  | Some _ => true
  | None => false
  end.

(** The filters the component switches to along a run, in order: one
    entry for every step that leaves [chartFilter] changed. *)
Fixpoint tab_trace (p : ChartTableProps) (es : list Event) (s : State)
  : list string :=
  match es with
  | [] => []
  | e :: es =>
    let s' := step p e s in
    (if String.eqb (chartFilter s') (chartFilter s) then []
     else [chartFilter s'])
    ++ tab_trace p es s'
  end.

(** The collection is the answer to the most recent [fetchData] call, if
    there has been a call at all. *)
Definition shows_latest (s : State) : Prop :=
  ∀ i, S i = length (requested s) → shown s = Some i.

(** The view shows the collection whenever it is not showing the loading
    indicator (line 187). *)
Definition settled_view (s : State) : Prop :=
  loading s = false → shows_latest s.

(** What holds of the fetches of a component whose page has settled
    after every event ([step]): the first effect has run; the most
    recent request, if any, is the one for the active filter; and the
    loading indicator is up exactly while a request is in flight. *)
Definition in_step (p : ChartTableProps) (s : State) : Prop :=
  loaded s = true
  ∧ (requested s = []
     ∨ last (requested s) = Some (getData_config p (chartFilter s)))
  ∧ (if loading s
     then ∃ i, inflight s = [i] ∧ S i = length (requested s)
     else inflight s = []).



(** ** Concrete inputs on which the statements are exercised *)

Definition chart_bar : Chart := {[ "id" := JNum 1; "viz_type" := JStr "bar" ]}.
Definition chart_mine : Chart := {[ "id" := JNum 2; "viz_type" := JStr "pie" ]}.
Definition dashboard_row : JsObject := {[ "id" := JNum 3 ]}.

Definition props_with_examples : ChartTableProps :=
  {| user := Some {| userId := 7 |};
     mine := [chart_mine];
     showThumbnails := true;
     examples := Some [chart_bar; dashboard_row] |}.

Definition props_without_examples : ChartTableProps :=
  {| user := Some {| userId := 7 |};
     mine := [chart_mine];
     showThumbnails := true;
     examples := None |}.

Definition stored (tab : string) : Storage := {[ HOMEPAGE_CHART_FILTER := tab ]}.

(** The edit modal open on the one example chart. *)
Definition editing_state : State :=
  step props_with_examples (OpenEdit chart_bar)
    (mount props_with_examples (stored "Examples")).

(** A failed Favorite fetch: mounted on Mine with [mine] on display, the
    user goes to Favorite and the request fails. *)
Definition failed_favorite_run : State :=
  run props_with_examples [ClickTab "Favorite"; FetchSettled 0 None]
    (mount props_with_examples (stored "Mine")).


(** Two charts on display, the answer to a Favorite request. *)
Definition two_cards : State :=
  run props_with_examples
    [ClickTab "Favorite"; FetchSettled 0 (Some [chart_bar; chart_mine])]
    (mount props_with_examples (stored "Mine")).

(** ** The rest of the view *)

(** Line 93: [charts.map(c => c.id)], the ids handed to
    [useFavoriteStatus]. *)
Definition chartIds (s : State) : list JsVal := map (prop "id") (charts s).

(** What the click on a button of the submenu does to the browser. *)
Inductive Navigation : Type :=
| LocationAssign (url : string)      (* window.location.assign(url) *)
| HistoryPush (target : string).     (* history.push(target) *)

Inductive ButtonName : Type :=
| IconText (className text : string)  (* <><i className=.../>{text}</> *)
| Text (text : string).

Record SubMenuButton : Type := {
  button_name : ButtonName;
  buttonStyle : string;
  button_onClick : Navigation
}.

(** Lines 203-227, the [buttons] prop of the submenu. *)
Definition buttons (s : State) : list SubMenuButton :=
  [ {| button_name := IconText "fa fa-plus" (t "Chart");
       buttonStyle := "tertiary";
       button_onClick := LocationAssign "/chart/add" |};
    {| button_name := Text "View All »";
       buttonStyle := "link";
       button_onClick :=
         let target :=
           if String.eqb (chartFilter s) "Favorite"
           then "/chart/list/?filters=(favorite:!t)"
           else "/chart/list/" in
         HistoryPush target |} ].

(** No two neighbours of a list are equal. *)
Definition no_repeat {A : Type} (l : list A) : Prop :=
  ∀ i a b, l !! i = Some a → l !! S i = Some b → a ≠ b.

(** What is in the storage leads back to the active tab. *)
Definition tab_recoverable (p : ChartTableProps) (s : State) : Prop :=
  initialFilter (getFromLocalStorage HOMEPAGE_CHART_FILTER None (storage s))
    (examples p)
  = chartFilter s.

(** The fetches of a mounted component, with the tab they are for. *)
Definition fetches_in_order (p : ChartTableProps) (s : State) : Prop :=
  loaded s = true
  ∧ (requested s = []
     ∨ (last (requested s) = Some (getData_config p (chartFilter s))
        ∧ offered p (chartFilter s) = true))
  ∧ no_repeat (requested s).

(** * Properties *)

(** ** What the effect and the re-render leave alone *)

Ltac effect_cases :=
  unfold chartFilter_effect, andThen, getData, fetchData, skip, setLoaded;
  match goal with
  | |- context [loaded ?s || String.eqb ?a ?b] =>
    destruct (loaded s || String.eqb a b)
  end.

Lemma effect_chartFilter p s :
  chartFilter (chartFilter_effect p s) = chartFilter s.
Proof. effect_cases; reflexivity. Qed.

Lemma effect_charts p s : charts (chartFilter_effect p s) = charts s.
Proof. effect_cases; reflexivity. Qed.

Lemma effect_storage p s : storage (chartFilter_effect p s) = storage s.
Proof. effect_cases; reflexivity. Qed.

Lemma effect_preparingExport p s :
  preparingExport (chartFilter_effect p s) = preparingExport s.
Proof. effect_cases; reflexivity. Qed.

Lemma effect_exports p s : exports (chartFilter_effect p s) = exports s.
Proof. effect_cases; reflexivity. Qed.

Lemma effect_sliceCurrentlyEditing p s :
  sliceCurrentlyEditing (chartFilter_effect p s) = sliceCurrentlyEditing s.
Proof. effect_cases; reflexivity. Qed.


Lemma effect_loaded p s : loaded (chartFilter_effect p s) = true.
Proof. effect_cases; reflexivity. Qed.

(** The effect fetches for the rendered filter when that is Favorite or
    when the component has been through its first effect, and not
    otherwise. *)
Lemma effect_fetches p s :
  loaded s || String.eqb (chartFilter s) "Favorite" = true →
  requested (chartFilter_effect p s)
    = requested s ++ [getData_config p (chartFilter s)]
  ∧ inflight (chartFilter_effect p s) = inflight s ++ [length (requested s)]
  ∧ loading (chartFilter_effect p s) = true.
Proof.
  intros H. unfold chartFilter_effect, andThen. rewrite H. by cbn.
Qed.

Lemma effect_idle p s :
  loaded s || String.eqb (chartFilter s) "Favorite" = false →
  requested (chartFilter_effect p s) = requested s
  ∧ inflight (chartFilter_effect p s) = inflight s
  ∧ loading (chartFilter_effect p s) = loading s.
Proof.
  intros H. unfold chartFilter_effect, andThen. rewrite H. by cbn.
Qed.

(** The tabs of the view: their names, and what a click on one does. *)
Lemma menuTabs_names ex :
  map name (menuTabs ex)
  = if bool_decide (is_Some ex) then ["Favorite"; "Mine"; "Examples"]
    else ["Favorite"; "Mine"].
Proof. unfold menuTabs. by case_bool_decide. Qed.

Lemma menuTabs_find ex tab m :
  find (λ m, String.eqb (name m) tab) (menuTabs ex) = Some m →
  onClick m = setChartFilter tab >> setInLocalStorage HOMEPAGE_CHART_FILTER tab
  ∧ (tab = "Favorite" ∨ tab = "Mine" ∨ (tab = "Examples" ∧ is_Some ex)).
Proof.
  unfold menuTabs. case_bool_decide as Hex; cbn [find app name];
    repeat match goal with
    | |- context [String.eqb ?a tab] => destruct (String.eqb_spec a tab)
    end; intros [= <-]; subst; cbn [onClick]; auto.
Qed.

Lemma offered_tabs p tab :
  offered p tab = true →
  tab = "Favorite" ∨ tab = "Mine" ∨ (tab = "Examples" ∧ is_Some (examples p)).
Proof.
  unfold offered.
  destruct (find _ _) as [m|] eqn:Hm; [|done].
  intros _. by apply menuTabs_find in Hm as [_ ?].
Qed.

Lemma rerender_same p s s' :
  chartFilter s' = chartFilter s → rerender p s s' = s'.
Proof. intros H. unfold rerender. by rewrite H, String.eqb_refl. Qed.

Lemma fetchData_settled_chartFilter k r s :
  chartFilter (fetchData_settled k r s) = chartFilter s.
Proof. unfold fetchData_settled. by destruct (inflight s !! k). Qed.

(** [step] with the re-render resolved: only a click on a tab other than
    the active one changes [chartFilter], so only it re-runs the effect. *)
Lemma step_unfold p e s :
  step p e s =
  match e with
  | ClickTab tab =>
    if tabs_rendered s && offered p tab then
      let s' :=
        (setChartFilter tab >> setInLocalStorage HOMEPAGE_CHART_FILTER tab) s
      in if String.eqb tab (chartFilter s) then s'
         else chartFilter_effect p s'
    else s
  | FetchSettled k result => fetchData_settled k result s
  | BulkExport chartsToExport =>
    if cards_rendered s then handleBulkChartExport chartsToExport s else s
  | ExportCompleted =>
    match exports s with
    | _ :: _ => (export_completed >> export_callback) s
    | [] => s
    end
  | OpenEdit chart =>
    if cards_rendered s then openChartEditModal chart s else s
  | SaveEdit edits =>
    if modal_rendered s then handleChartUpdated edits s else s
  | CloseEdit =>
    if modal_rendered s then closeChartEditModal s else s
  end.
Proof.
  destruct e as [tab|k r|cs| |c|ed|]; cbn [step].
  - unfold offered. destruct (tabs_rendered s); [|done].
    destruct (find _ _) as [m|] eqn:Hm; [|done].
    apply menuTabs_find in Hm as [-> _]. cbn [andb].
    unfold rerender. reflexivity.
  - apply rerender_same, fetchData_settled_chartFilter.
  - destruct (cards_rendered s); [|done]. by apply rerender_same.
  - destruct (exports s); [done|]. by apply rerender_same.
  - destruct (cards_rendered s); [|done]. by apply rerender_same.
  - destruct (modal_rendered s); [|done]. by apply rerender_same.
  - destruct (modal_rendered s); [|done]. by apply rerender_same.
Qed.

(** ** The initial tab *)

Lemma mount_chartFilter p st :
  chartFilter (mount p st)
  = initialFilter (getFromLocalStorage HOMEPAGE_CHART_FILTER None st)
      (examples p).
Proof. unfold mount. by rewrite effect_chartFilter. Qed.

Lemma mount_charts p st :
  charts (mount p st) = defaultCollection (chartFilter (mount p st)) p.
Proof. unfold mount. by rewrite effect_charts, effect_chartFilter. Qed.

(** The scenario of the spec: nothing stored, one example chart, no
    chart of one's own.  The component mounts on Examples, fetches
    nothing and renders one card. *)
Example mount_on_supplied_examples :
  let p := {| user := None; mine := []; showThumbnails := false;
              examples := Some [chart_bar] |} in
  chartFilter (mount p ∅) = "Examples"
  ∧ requested (mount p ∅) = []
  ∧ render p (mount p ∅)
    = ErrorBoundary
        [ SubMenu "Examples" ["Favorite"; "Mine"; "Examples"];
          CardContainer
            [ {| card_key := "1"; card_chart := chart_bar;
                 card_chartFilter := "Examples"; card_userId := None;
                 card_showThumbnails := false |} ] ].
Proof. by vm_compute. Qed.

(** C2.  On mount the tab is the value that the read of the storage under
    the filter key returns (any non-empty string); only when that value
    is "Examples" and the [examples] prop was not supplied is the tab
    "Mine" instead. *)
Theorem initial_tab_from_storage p st v :
  getFromLocalStorage HOMEPAGE_CHART_FILTER None st = Some v →
  v ≠ "" →
  chartFilter (mount p st)
  = match examples p with
    | None => if String.eqb v "Examples" then "Mine" else v
    | Some _ => v
    end.
Proof.
  intros Hget Hv. rewrite mount_chartFilter, Hget.
  unfold initialFilter, truthy.
  destruct (String.eqb_spec v "") as [->|_]; [done|]. cbn [negb default].
  destruct (examples p) as [l|]; cbn.
  - reflexivity.
  - unfold TableTabTypes.EXAMPLES.
    destruct (String.eqb_spec v "Examples") as [->|Hne].
    + by rewrite bool_decide_eq_true_2.
    + rewrite bool_decide_eq_false_2; [done|]. by intros [= ->].
Qed.

Lemma initial_tab_from_storage_witness :
  chartFilter (mount props_without_examples (stored "Examples")) = "Mine"
  ∧ chartFilter (mount props_with_examples (stored "Examples")) = "Examples"
  ∧ chartFilter (mount props_without_examples (stored "Favorite")) = "Favorite".
Proof.
  split; [|split].
  - apply (initial_tab_from_storage props_without_examples
             (stored "Examples") "Examples"); [reflexivity | discriminate].
  - apply (initial_tab_from_storage props_with_examples
             (stored "Examples") "Examples"); [reflexivity | discriminate].
  - apply (initial_tab_from_storage props_without_examples
             (stored "Favorite") "Favorite"); [reflexivity | discriminate].
Defined.

(** C9.  With nothing stored under the filter key the component mounts
    on the tab "Examples", with or without an [examples] prop; without
    the prop the submenu it renders has no tab of that name.  The tab is
    "Mine" only when "Mine" itself was stored, or when exactly "Examples"
    was stored and there is no [examples] prop. *)
Theorem initial_tab_nothing_stored p st :
  getFromLocalStorage HOMEPAGE_CHART_FILTER None st = None →
  chartFilter (mount p st) = "Examples"
  ∧ (examples p = None →
     map name (menuTabs (examples p)) = ["Favorite"; "Mine"]
     ∧ render p (mount p st)
       = ErrorBoundary [ SubMenu "Examples" ["Favorite"; "Mine"];
                         EmptyState "CHARTS" "Examples" ])
  ∧ ∀ filterStore ex,
      initialFilter filterStore ex = "Mine" →
      filterStore = Some "Mine"
      ∨ (filterStore = Some "Examples" ∧ ex = None).
Proof.
  intros Hget. split; [|split].
  - rewrite mount_chartFilter, Hget. unfold initialFilter.
    rewrite (bool_decide_eq_false_2 (None = _)) by done.
    by rewrite andb_false_r.
  - intros Hex. split; [by rewrite Hex|].
    unfold mount, render, defaultCollection. rewrite Hget, !Hex.
    reflexivity.
  - intros filterStore ex. unfold initialFilter.
    destruct (decide (filterStore = Some TableTabTypes.EXAMPLES)) as [->|Hne].
    + destruct ex as [l|]; [cbn; discriminate | by right].
    + rewrite (bool_decide_eq_false_2 _ Hne), andb_false_r.
      destruct filterStore as [v|]; cbn; [|discriminate].
      destruct (String.eqb_spec v ""); cbn; [discriminate|].
      intros ->. by left.
Qed.

Lemma initial_tab_nothing_stored_witness :
  chartFilter (mount props_without_examples ∅) = "Examples"
  ∧ map name (menuTabs (examples props_without_examples))
    = ["Favorite"; "Mine"].
Proof.
  pose proof (initial_tab_nothing_stored props_without_examples ∅ eq_refl)
    as (H1 & H2 & _).
  exact (conj H1 (proj1 (H2 eq_refl))).
Defined.

(** C10.  The collection the data loader starts from is [mine] when the
    initial tab is "Mine" and, for every other initial tab, those of the
    supplied [examples] (none when the prop is absent) that have a
    property ['viz_type']. *)
Theorem default_collection p st :
  charts (mount p st)
  = (if String.eqb (chartFilter (mount p st)) "Mine" then mine p
     else List.filter (has_key "viz_type") (default [] (examples p)))
  ∧ (∀ o : JsObject,
       o ∈ filteredExamples (examples p)
       ↔ o ∈ default [] (examples p) ∧ is_Some (o !! "viz_type"))
  ∧ defaultCollection "Mine" p = mine p
  ∧ defaultCollection "Favorite" p = filteredExamples (examples p)
  ∧ defaultCollection "Examples" p = filteredExamples (examples p).
Proof.
  split; [apply mount_charts|]. split; [|done].
  intros o. unfold filteredExamples, has_key.
  rewrite !list_elem_of_In, filter_In, bool_decide_eq_true. done.
Qed.

(** ** The request of a fetch *)

Example string_of_Z_7 : string_of_Z 7 = "7".
Proof. reflexivity. Qed.

Lemma to_int_not_nil n :
  Z.to_int n ≠ Decimal.Pos Decimal.Nil ∧ Z.to_int n ≠ Decimal.Neg Decimal.Nil.
Proof.
  pose proof (DecimalZ.to_of (Z.to_int n)) as H.
  rewrite DecimalZ.of_to in H.
  split; intros E; rewrite E in H; discriminate H.
Qed.

(** The rendering of the user id determines the user id. *)
Lemma string_of_Z_inj a b : string_of_Z a = string_of_Z b → a = b.
Proof.
  unfold string_of_Z. intros E.
  destruct (to_int_not_nil a) as [Ha1 Ha2], (to_int_not_nil b) as [Hb1 Hb2].
  pose proof (NilZero.isi _ Ha1 Ha2) as Ia.
  pose proof (NilZero.isi _ Hb1 Hb2) as Ib.
  rewrite E, Ib in Ia. injection Ia as Ia.
  rewrite <- (DecimalZ.of_to a), <- (DecimalZ.of_to b). by f_equal.
Qed.

(** C4.  [getData] hands exactly one request to [fetchData]: page 0, page
    size 3, sorted by [changed_on_delta_humanized] descending, with the
    filters of the tab: for Mine one [created_by] filter whose value is
    the rendering of the user's id, for Favorite one [chart_is_favorite]
    filter, for Examples none. *)
Theorem getData_request p filter s :
  requested (getData p filter s) = requested s ++ [getData_config p filter]
  ∧ pageIndex (getData_config p filter) = 0%Z
  ∧ pageSize (getData_config p filter) = 3%Z
  ∧ sortBy (getData_config p filter)
    = [ {| sort_id := "changed_on_delta_humanized"; desc := true |} ]
  ∧ filters (getData_config p filter) = getFilters p filter
  ∧ getFilters p "Mine"
    = [ {| filter_id := "created_by";
           operator := "rel_o_m";
           value := JStr match user p with
                         | Some u => string_of_Z (userId u)
                         | None => "undefined"
                         end |} ]
  ∧ getFilters p "Favorite"
    = [ {| filter_id := "id";
           operator := "chart_is_favorite";
           value := JBool true |} ]
  ∧ getFilters p "Examples" = [].
Proof. repeat split. Qed.

(** ** Selecting a tab *)

(** C3.  Whatever the state, after the [onClick] of any tab of the
    submenu has run, reading the storage under the filter key gives that
    tab's name, and [chartFilter] is that name; with [examples] supplied
    the tabs are Favorite, Mine and Examples.  The re-render that follows
    a click changes neither. *)
Theorem tab_click_persists p s d :
  Forall (λ m,
            getFromLocalStorage HOMEPAGE_CHART_FILTER d (storage (onClick m s))
            = Some (name m)
            ∧ chartFilter (onClick m s) = name m
            ∧ getFromLocalStorage HOMEPAGE_CHART_FILTER d
                (storage (rerender p s (onClick m s)))
              = Some (name m)
            ∧ chartFilter (rerender p s (onClick m s)) = name m)
         (menuTabs (examples p))
  ∧ (is_Some (examples p) →
     map name (menuTabs (examples p)) = ["Favorite"; "Mine"; "Examples"])
  ∧ (examples p = None →
     map name (menuTabs (examples p)) = ["Favorite"; "Mine"]).
Proof.
  assert (Hclick : ∀ tab,
    let s' := (setChartFilter tab
               >> setInLocalStorage HOMEPAGE_CHART_FILTER tab) s in
    getFromLocalStorage HOMEPAGE_CHART_FILTER d (storage s') = Some tab
    ∧ chartFilter s' = tab
    ∧ getFromLocalStorage HOMEPAGE_CHART_FILTER d
        (storage (rerender p s s')) = Some tab
    ∧ chartFilter (rerender p s s') = tab).
  { intros tab s'.
    assert (Hst : getFromLocalStorage HOMEPAGE_CHART_FILTER d (storage s')
                  = Some tab).
    { unfold getFromLocalStorage, s', andThen; cbn [storage setInLocalStorage].
      unfold storage_set. by rewrite lookup_insert_eq. }
    split; [exact Hst|]. split; [reflexivity|].
    unfold rerender. destruct (String.eqb _ _); [done|].
    by rewrite effect_storage, effect_chartFilter. }
  split; [|split].
  - unfold menuTabs. case_bool_decide; repeat constructor; apply Hclick.
  - intros Hex. by rewrite menuTabs_names, bool_decide_eq_true_2.
  - intros ->. reflexivity.
Qed.

(** ** When the component fetches *)

(** What a step does to the log of [fetchData] calls: it adds the
    request for the new filter if the filter changed and the effect's
    condition held, and nothing otherwise. *)
Lemma step_requested p e s :
  requested (step p e s)
  = requested s ++
    (if String.eqb (chartFilter (step p e s)) (chartFilter s) then []
     else if loaded s || String.eqb (chartFilter (step p e s)) "Favorite"
          then [getData_config p (chartFilter (step p e s))]
          else []).
Proof.
  rewrite step_unfold.
  destruct e as [tab|k r|cs| |c|ed|].
  - destruct (tabs_rendered s && offered p tab);
      [|by rewrite String.eqb_refl, app_nil_r].
    cbn zeta. destruct (String.eqb_spec tab (chartFilter s)) as [->|Hne].
    + cbn. by rewrite String.eqb_refl, app_nil_r.
    + rewrite effect_chartFilter.
      cbn [chartFilter andThen setChartFilter setInLocalStorage].
      destruct (String.eqb_spec tab (chartFilter s)) as [|_]; [done|].
      set (s' := (setChartFilter tab >> _) s).
      destruct (loaded s || String.eqb tab "Favorite") eqn:Hcond.
      * by destruct (effect_fetches p s' Hcond) as [-> _].
      * rewrite app_nil_r. by destruct (effect_idle p s' Hcond) as [-> _].
  - rewrite fetchData_settled_chartFilter, String.eqb_refl, app_nil_r.
    unfold fetchData_settled. by destruct (inflight s !! k).
  - destruct (cards_rendered s); by rewrite String.eqb_refl, app_nil_r.
  - destruct (exports s); by rewrite String.eqb_refl, app_nil_r.
  - destruct (cards_rendered s); by rewrite String.eqb_refl, app_nil_r.
  - destruct (modal_rendered s); by rewrite String.eqb_refl, app_nil_r.
  - destruct (modal_rendered s); by rewrite String.eqb_refl, app_nil_r.
Qed.

Lemma step_loaded p e s : loaded s = true → loaded (step p e s) = true.
Proof.
  intros Hl. rewrite step_unfold.
  destruct e as [tab|k r|cs| |c|ed|].
  - destruct (tabs_rendered s && offered p tab); [|done].
    cbn zeta. destruct (String.eqb _ _); [done|]. apply effect_loaded.
  - unfold fetchData_settled. by destruct (inflight s !! k).
  - by destruct (cards_rendered s).
  - by destruct (exports s).
  - by destruct (cards_rendered s).
  - by destruct (modal_rendered s).
  - by destruct (modal_rendered s).
Qed.

Lemma mount_loaded p st : loaded (mount p st) = true.
Proof. apply effect_loaded. Qed.

Lemma run_cons p e es s : run p (e :: es) s = run p es (step p e s).
Proof. reflexivity. Qed.

(** C1.  The tab becomes "Favorite" either on mount or by a step from a
    state with another tab; either way the effect that follows hands the
    Favorite request to [fetchData], whatever [loaded], the collection
    and the props are. *)
Theorem favorite_always_fetches p :
  (∀ st,
     chartFilter (mount p st) = "Favorite" →
     requested (mount p st) = [getData_config p "Favorite"]
     ∧ loading (mount p st) = true)
  ∧ (∀ e s,
       chartFilter s ≠ "Favorite" →
       chartFilter (step p e s) = "Favorite" →
       requested (step p e s) = requested s ++ [getData_config p "Favorite"]).
Proof.
  split.
  - intros st Hfav. rewrite mount_chartFilter in Hfav. unfold mount.
    set (s0 := Build_State _ _ _ _ _ _ _ _ _ _ _).
    destruct (effect_fetches p s0) as (Hr & _ & Hl).
    { cbn [chartFilter loaded s0]. by rewrite Hfav. }
    rewrite Hr, Hl. cbn [chartFilter requested s0]. by rewrite Hfav.
  - intros e s Hne Hfav. rewrite step_requested, Hfav.
    destruct (String.eqb_spec "Favorite" (chartFilter s)) as [E|_]; [done|].
    by rewrite orb_true_r.
Qed.

Lemma favorite_always_fetches_witness :
  requested (mount props_with_examples (stored "Favorite"))
  = [getData_config props_with_examples "Favorite"]
  ∧ requested (step props_with_examples (ClickTab "Favorite")
                 (mount props_with_examples (stored "Mine")))
    = [getData_config props_with_examples "Favorite"].
Proof.
  destruct (favorite_always_fetches props_with_examples) as [Hmount Hstep].
  split.
  - apply (Hmount (stored "Favorite")). reflexivity.
  - apply (Hstep (ClickTab "Favorite")
             (mount props_with_examples (stored "Mine")));
      [discriminate | reflexivity].
Defined.

(** Once the first effect has run, the log of [fetchData] calls grows by
    exactly one request per change of tab, for the tab changed to. *)
Lemma run_requested p es s :
  loaded s = true →
  requested (run p es s)
  = requested s ++ map (getData_config p) (tab_trace p es s).
Proof.
  revert s. induction es as [|e es IH]; intros s Hl.
  - cbn. by rewrite app_nil_r.
  - rewrite run_cons, IH by by apply step_loaded.
    rewrite step_requested, Hl. cbn [orb tab_trace].
    rewrite <- app_assoc, map_app. f_equal. f_equal.
    by destruct (String.eqb _ _).
Qed.

(** C5.  Mounted on a tab other than "Favorite" the component has called
    [fetchData] not at all, shows no loading indicator and holds the
    default collection; from then on its [fetchData] calls are, one for
    one and in order, the changes of tab. *)
Theorem no_fetch_on_mount p st :
  chartFilter (mount p st) ≠ "Favorite" →
  requested (mount p st) = []
  ∧ inflight (mount p st) = []
  ∧ loading (mount p st) = false
  ∧ charts (mount p st) = defaultCollection (chartFilter (mount p st)) p
  ∧ ∀ es,
      requested (run p es (mount p st))
      = map (getData_config p) (tab_trace p es (mount p st)).
Proof.
  intros Hne.
  assert (Hidle : requested (mount p st) = []
                  ∧ inflight (mount p st) = []
                  ∧ loading (mount p st) = false).
  { rewrite mount_chartFilter in Hne. unfold mount.
    set (s0 := Build_State _ _ _ _ _ _ _ _ _ _ _).
    apply (effect_idle p s0). cbn [loaded chartFilter s0 orb].
    by apply String.eqb_neq. }
  destruct Hidle as (Hr & Hi & Hl).
  repeat split; try done.
  - apply mount_charts.
  - intros es. by rewrite run_requested, Hr by apply mount_loaded.
Qed.

Lemma no_fetch_on_mount_witness :
  requested (mount props_with_examples (stored "Mine")) = []
  ∧ charts (mount props_with_examples (stored "Mine")) = [chart_mine]
  ∧ requested (run props_with_examples [ClickTab "Examples"]
                 (mount props_with_examples (stored "Mine")))
    = [getData_config props_with_examples "Examples"].
Proof.
  destruct (no_fetch_on_mount props_with_examples (stored "Mine"))
    as (Hr & _ & _ & Hc & Hes).
  { intros H. vm_compute in H. discriminate H. }
  split; [exact Hr|]. split; [exact Hc|]. exact (Hes [ClickTab "Examples"]).
Defined.

(** ** The edit modal *)

(** C6.  With the modal open, saving maps the collection entry by entry:
    an entry whose [id] is that of the saved chart becomes the saved
    chart, every other entry stays as it is; the modal is closed
    afterwards.  Closing instead leaves the collection as it is and the
    modal closed.  Neither touches the filter or fetches. *)
Theorem edit_modal_save p edits s :
  modal_rendered s = true →
  length (charts (step p (SaveEdit edits) s)) = length (charts s)
  ∧ (∀ i chart,
       charts s !! i = Some chart →
       charts (step p (SaveEdit edits) s) !! i
       = Some (if strict_eq (prop "id" chart) (prop "id" edits)
               then edits else chart))
  ∧ sliceCurrentlyEditing (step p (SaveEdit edits) s) = None
  ∧ charts (step p CloseEdit s) = charts s
  ∧ sliceCurrentlyEditing (step p CloseEdit s) = None
  ∧ chartFilter (step p (SaveEdit edits) s) = chartFilter s
  ∧ requested (step p (SaveEdit edits) s) = requested s
  ∧ requested (step p CloseEdit s) = requested s.
Proof.
  intros Hm. rewrite !step_unfold, Hm.
  unfold handleChartUpdated, closeChartEditModal, andThen.
  cbn [charts sliceCurrentlyEditing chartFilter requested
       setCharts setSliceCurrentlyEditing].
  repeat split.
  - apply length_map.
  - intros i chart Hi. by rewrite list_lookup_fmap, Hi.
Qed.

Lemma edit_modal_save_witness :
  charts (step props_with_examples
            (SaveEdit {[ "id" := JNum 1; "viz_type" := JStr "line" ]})
            editing_state)
  !! 0 = Some {[ "id" := JNum 1; "viz_type" := JStr "line" ]}.
Proof.
  pose proof (edit_modal_save props_with_examples
                {[ "id" := JNum 1; "viz_type" := JStr "line" ]}
                editing_state eq_refl) as (_ & H & _).
  exact (H 0 chart_bar eq_refl).
Defined.

(** ** Bulk export *)

Lemma step_keeps_exporting p e s :
  e ≠ ExportCompleted →
  preparingExport s = true →
  preparingExport (step p e s) = true.
Proof.
  intros He Hx. rewrite step_unfold.
  destruct e as [tab|k r|cs| |c|ed|]; try done.
  - destruct (tabs_rendered s && offered p tab); [|done].
    cbn zeta. destruct (String.eqb _ _); [done|].
    by rewrite effect_preparingExport.
  - unfold fetchData_settled. by destruct (inflight s !! k).
  - by destruct (cards_rendered s).
  - by destruct (cards_rendered s).
  - by destruct (modal_rendered s).
  - by destruct (modal_rendered s).
Qed.

Lemma step_keeps_exports p e s :
  e ≠ ExportCompleted →
  exports s ≠ [] →
  exports (step p e s) ≠ [].
Proof.
  intros He Hx. rewrite step_unfold.
  destruct e as [tab|k r|cs| |c|ed|]; try done.
  - destruct (tabs_rendered s && offered p tab); [|done].
    cbn zeta. destruct (String.eqb _ _); [done|].
    by rewrite effect_exports.
  - unfold fetchData_settled. by destruct (inflight s !! k).
  - destruct (cards_rendered s); [|done]. cbn. by destruct (exports s).
  - by destruct (cards_rendered s).
  - by destruct (modal_rendered s).
  - by destruct (modal_rendered s).
Qed.

Lemma run_keeps_exporting p es s :
  ExportCompleted ∉ es →
  preparingExport s = true →
  exports s ≠ [] →
  preparingExport (run p es s) = true ∧ exports (run p es s) ≠ [].
Proof.
  revert s. induction es as [|e es IH]; intros s Hes Hx Hq; [done|].
  apply not_elem_of_cons in Hes as [He Hes].
  rewrite run_cons. apply IH; [done| |].
  - by apply step_keeps_exporting.
  - by apply step_keeps_exports.
Qed.

(** The export indicator is one more child after the grid; it takes the
    place of nothing. *)
Lemma render_while_exporting p s :
  preparingExport s = true →
  loading s = false →
  charts s ≠ [] →
  render p s
  = ErrorBoundary
      (match sliceCurrentlyEditing s with
       | Some slice => [PropertiesModal slice]
       | None => []
       end
       ++ [ SubMenu (chartFilter s) (map name (menuTabs (examples p)));
            CardContainer (map (card p s) (charts s));
            Loading None ]).
Proof.
  intros Hx Hl Hc. unfold render. rewrite Hx, Hl.
  by destruct (charts s).
Qed.

(** C7.  A bulk export started from a card raises [preparingExport] and
    hands the ids of the charts to the export collaborator.  The flag
    stays raised through every event that is not the completion of an
    export, and the completion callback lowers it.  Raising the flag
    replaces nothing: the view is what it is without the flag, the grid
    of cards included, with the export indicator as one more child at
    the end (only the loading indicator of a fetch takes the place of the
    whole view, flag or no flag). *)
Theorem bulk_export_flag p chartsToExport s :
  cards_rendered s = true →
  preparingExport (step p (BulkExport chartsToExport) s) = true
  ∧ exports (step p (BulkExport chartsToExport) s)
    = exports s ++ [map (prop "id") chartsToExport]
  ∧ render p (step p (BulkExport chartsToExport) s)
    = ErrorBoundary
        (match sliceCurrentlyEditing s with
         | Some slice => [PropertiesModal slice]
         | None => []
         end
         ++ [ SubMenu (chartFilter s) (map name (menuTabs (examples p)));
              CardContainer (map (card p s) (charts s));
              Loading None ])
  ∧ (∀ es,
       ExportCompleted ∉ es →
       preparingExport (run p es (step p (BulkExport chartsToExport) s))
       = true
       ∧ preparingExport
           (step p ExportCompleted
              (run p es (step p (BulkExport chartsToExport) s)))
         = false)
  ∧ (∀ s',
       preparingExport s' = true → loading s' = false → charts s' ≠ [] →
       ∃ above,
         render p s'
         = ErrorBoundary
             (above ++ [ CardContainer (map (card p s') (charts s'));
                         Loading None ]))
  ∧ (∀ s',
       render p (setPreparingExport true s')
       = match render p (setPreparingExport false s') with
         | ErrorBoundary children => ErrorBoundary (children ++ [Loading None])
         | view => view
         end).
Proof.
  intros Hc.
  assert (Hstep : step p (BulkExport chartsToExport) s
                  = handleBulkChartExport chartsToExport s).
  { by rewrite step_unfold, Hc. }
  apply andb_true_iff in Hc as [Hl Hne].
  apply negb_true_iff in Hl.
  rewrite Hstep. split; [done|]. split; [done|]. split; [|split; [|split]].
  - rewrite render_while_exporting; [done..|].
    cbn. by destruct (charts s).
  - intros es Hes.
    destruct (run_keeps_exporting p es
                (handleBulkChartExport chartsToExport s) Hes) as [Hx Hq].
    { done. }
    { cbn. by destruct (exports s). }
    split; [exact Hx|]. rewrite step_unfold.
    destruct (exports (run p es _)); done.
  - intros s' Hx' Hl' Hc'.
    exists (match sliceCurrentlyEditing s' with
            | Some slice => [PropertiesModal slice]
            | None => []
            end
            ++ [SubMenu (chartFilter s') (map name (menuTabs (examples p)))]).
    rewrite render_while_exporting by done. by rewrite <- app_assoc.
  - intros s'. unfold render. cbn.
    destruct (loading s'); [done|].
    by destruct (sliceCurrentlyEditing s'), (charts s').
Qed.

Lemma bulk_export_flag_witness :
  preparingExport
    (step props_with_examples (BulkExport [chart_bar])
       (mount props_with_examples (stored "Examples"))) = true
  ∧ preparingExport
      (step props_with_examples ExportCompleted
         (run props_with_examples []
            (step props_with_examples (BulkExport [chart_bar])
               (mount props_with_examples (stored "Examples"))))) = false.
Proof.
  destruct (bulk_export_flag props_with_examples [chart_bar]
              (mount props_with_examples (stored "Examples")) eq_refl)
    as (H1 & _ & _ & H2 & _ & _).
  split; [exact H1|].
  apply (H2 []). apply not_elem_of_nil.
Defined.

(** ** Fetches in flight and the collection on display *)

Lemma mount_in_step p st : in_step p (mount p st) ∧ settled_view (mount p st).
Proof.
  unfold in_step, settled_view, shows_latest.
  rewrite mount_loaded, mount_chartFilter. unfold mount.
  set (s0 := Build_State _ _ _ _ _ _ _ _ _ _ _).
  destruct (loaded s0 || String.eqb (chartFilter s0) "Favorite") eqn:Hcond.
  - destruct (effect_fetches p s0 Hcond) as (-> & -> & ->).
    split_and!; [done | by right | by exists 0 | done].
  - destruct (effect_idle p s0 Hcond) as (-> & -> & ->).
    split_and!; [done | by left | done | ]. intros _ i. cbn. lia.
Qed.

Lemma step_in_step p e s : in_step p s → in_step p (step p e s).
Proof.
  intros Hs. pose proof Hs as (Hl & Hlast & Hfl). rewrite step_unfold.
  destruct e as [tab|k r|cs| |c|ed|].
  - unfold tabs_rendered.
    destruct (loading s) eqn:Hld; [done|]. cbn [negb andb].
    destruct (offered p tab); [|done].
    cbn zeta. destruct (String.eqb_spec tab (chartFilter s)) as [->|Hne].
    + unfold in_step; cbn. by rewrite Hld.
    + set (s' := (setChartFilter tab >> _) s).
      destruct (effect_fetches p s') as (Hr & Hi & Hl').
      { cbn. by rewrite Hl. }
      unfold in_step. rewrite effect_loaded, effect_chartFilter, Hr, Hi, Hl'.
      cbn [requested inflight chartFilter s' andThen setChartFilter
           setInLocalStorage].
      rewrite Hfl, last_snoc, length_app. cbn.
      repeat split; [by right|]. exists (length (requested s)).
      split; [done|lia].
  - unfold fetchData_settled.
    destruct (inflight s !! k) as [i|] eqn:Hk; [|done].
    unfold in_step; cbn. repeat split; [done..|].
    destruct (loading s); [|by rewrite Hfl in Hk].
    destruct Hfl as (i0 & Hfl & _). rewrite Hfl in Hk |- *.
    by destruct k.
  - by destruct (cards_rendered s).
  - by destruct (exports s).
  - by destruct (cards_rendered s).
  - by destruct (modal_rendered s).
  - by destruct (modal_rendered s).
Qed.

Lemma run_in_step p es s : in_step p s → in_step p (run p es s).
Proof.
  revert s. induction es as [|e es IH]; intros s Hs; [done|].
  rewrite run_cons. by apply IH, step_in_step.
Qed.

(** A failed fetch leaves the collection of the tab before on display
    under the new tab: here the active filter and the most recent
    request are Favorite, the collection is still the default of Mine. *)
Lemma stale_collection_after_failed_fetch :
  loading failed_favorite_run = false
  ∧ chartFilter failed_favorite_run = "Favorite"
  ∧ requested failed_favorite_run
    = [getData_config props_with_examples "Favorite"]
  ∧ charts failed_favorite_run = mine props_with_examples
  ∧ shown failed_favorite_run = None
  ∧ ¬ settled_view failed_favorite_run.
Proof.
  split_and!; try reflexivity.
  intros H. specialize (H eq_refl 0 eq_refl). discriminate H.
Qed.

(** ** Answers out of order *)

Lemma mounted_current p st : current (mounted p st) = mount p st.
Proof. reflexivity. Qed.


(** On a settled page a click followed by the render is the step of the
    click. *)
Lemma step_is_click_then_render p tab s :
  current (play p [Click tab; Render] {| current := s; onscreen := s |})
  = step p (ClickTab tab) s.
Proof.
  cbn [play fold_left react step current onscreen].
  destruct (tabs_rendered s); [|by apply rerender_same].
  destruct (find _ _); [done|]. by apply rerender_same.
Qed.








(** * Further properties of the component *)

(** ** The stored tab *)

Lemma offered_initialFilter p tab :
  offered p tab = true →
  initialFilter (Some tab) (examples p) = tab.
Proof.
  intros H. apply offered_tabs in H as [->|[->|[-> [l Hl]]]].
  - by destruct (examples p).
  - by destruct (examples p).
  - by rewrite Hl.
Qed.

Lemma step_tab_recoverable p e s :
  tab_recoverable p s → tab_recoverable p (step p e s).
Proof.
  intros Hs. rewrite step_unfold.
  destruct e as [tab|k r|cs| |c|ed|].
  - destruct (tabs_rendered s); [|done]. cbn [andb].
    destruct (offered p tab) eqn:Hoff; [|done]. cbn zeta.
    assert (Hclick : tab_recoverable p
              ((setChartFilter tab
                >> setInLocalStorage HOMEPAGE_CHART_FILTER tab) s)).
    { unfold tab_recoverable, getFromLocalStorage, andThen.
      cbn [storage chartFilter setInLocalStorage setChartFilter].
      unfold storage_set. rewrite lookup_insert_eq.
      by apply offered_initialFilter. }
    destruct (String.eqb _ _); [done|].
    unfold tab_recoverable. by rewrite effect_storage, effect_chartFilter.
  - unfold fetchData_settled. by destruct (inflight s !! k).
  - by destruct (cards_rendered s).
  - by destruct (exports s).
  - by destruct (cards_rendered s).
  - by destruct (modal_rendered s).
  - by destruct (modal_rendered s).
Qed.

(** X1.  Reloading the page at any moment, with the same props, comes
    back to the tab that was active: mounting on the storage a run has
    left behind starts on the run's last tab. *)
Theorem reload_restores_tab p st es :
  chartFilter (mount p (storage (run p es (mount p st))))
  = chartFilter (run p es (mount p st)).
Proof.
  rewrite mount_chartFilter.
  assert (H0 : tab_recoverable p (mount p st)).
  { unfold tab_recoverable, mount.
    by rewrite effect_storage, effect_chartFilter. }
  revert H0. generalize (mount p st).
  induction es as [|e es IH]; intros s Hs; [done|].
  rewrite run_cons. by apply IH, step_tab_recoverable.
Qed.

Lemma step_storage p e s :
  storage (step p e s) = storage s
  ∨ ∃ tab, e = ClickTab tab ∧ offered p tab = true
           ∧ storage (step p e s)
             = <[HOMEPAGE_CHART_FILTER := tab]> (storage s).
Proof.
  rewrite step_unfold.
  destruct e as [tab|k r|cs| |c|ed|].
  - destruct (tabs_rendered s); [|by left]. cbn [andb].
    destruct (offered p tab) eqn:Hoff; [|by left]. cbn zeta.
    right. exists tab. split_and!; [done..|].
    destruct (String.eqb _ _); [done|]. by rewrite effect_storage.
  - left. unfold fetchData_settled. by destruct (inflight s !! k).
  - left. by destruct (cards_rendered s).
  - left. by destruct (exports s).
  - left. by destruct (cards_rendered s).
  - left. by destruct (modal_rendered s).
  - left. by destruct (modal_rendered s).
Qed.

(** X2.  The component writes nothing but its own key, and writes it
    only on a click on a tab: along any run every other key of the
    storage keeps its value, and a step that is not a click on an offered
    tab leaves the storage as it is. *)
Theorem storage_frame p es s :
  (∀ key, key ≠ HOMEPAGE_CHART_FILTER →
          storage (run p es s) !! key = storage s !! key)
  ∧ (∀ e, (∀ tab, e = ClickTab tab → offered p tab = false) →
          storage (step p e s) = storage s).
Proof.
  split.
  - intros key Hkey. revert s.
    induction es as [|e es IH]; intros s; [done|].
    rewrite run_cons, IH.
    destruct (step_storage p e s) as [->|(tab & _ & _ & ->)]; [done|].
    by rewrite lookup_insert_ne.
  - intros e He.
    destruct (step_storage p e s) as [?|(tab & -> & Hoff & _)]; [done|].
    rewrite (He tab eq_refl) in Hoff. discriminate.
Qed.

(** ** Clicking a tab twice *)

Lemma click_twice tab s :
  (setChartFilter tab >> setInLocalStorage HOMEPAGE_CHART_FILTER tab)
    ((setChartFilter tab >> setInLocalStorage HOMEPAGE_CHART_FILTER tab) s)
  = (setChartFilter tab >> setInLocalStorage HOMEPAGE_CHART_FILTER tab) s.
Proof.
  unfold andThen, setInLocalStorage, setChartFilter, storage_set. cbn.
  by rewrite insert_insert_eq.
Qed.

(** X3.  A second click on the tab just clicked does nothing more, and a
    click on the tab that is already active calls [fetchData] not at all:
    the log of requests, the requests in flight, the loading flag and the
    collection stay as they are. *)
Theorem click_active_tab p tab s :
  step p (ClickTab tab) (step p (ClickTab tab) s) = step p (ClickTab tab) s
  ∧ requested (step p (ClickTab (chartFilter s)) s) = requested s
  ∧ inflight (step p (ClickTab (chartFilter s)) s) = inflight s
  ∧ loading (step p (ClickTab (chartFilter s)) s) = loading s
  ∧ charts (step p (ClickTab (chartFilter s)) s) = charts s
  ∧ chartFilter (step p (ClickTab (chartFilter s)) s) = chartFilter s.
Proof.
  split.
  - rewrite (step_unfold p (ClickTab tab) s).
    destruct (tabs_rendered s && offered p tab) eqn:Hgate.
    2:{ rewrite step_unfold. by rewrite Hgate. }
    apply andb_true_iff in Hgate as [Hr Hoff]. cbn zeta.
    set (s1 := (setChartFilter tab >> _) s).
    assert (Hsame : ∀ s2,
              chartFilter s2 = tab →
              (setChartFilter tab
               >> setInLocalStorage HOMEPAGE_CHART_FILTER tab) s2 = s2 →
              step p (ClickTab tab) s2 = s2).
    { intros s2 Hcf Hfix. rewrite step_unfold.
      destruct (tabs_rendered s2 && offered p tab); [|done].
      cbn zeta. by rewrite Hfix, Hcf, String.eqb_refl. }
    destruct (String.eqb_spec tab (chartFilter s)) as [E|Hne].
    + apply Hsame; [done|]. apply click_twice.
    + unfold chartFilter_effect, andThen.
      destruct (loaded s1 || String.eqb (chartFilter s1) "Favorite").
      * rewrite step_unfold. cbn. reflexivity.
      * apply Hsame; [done|].
        unfold skip, setLoaded, andThen, setInLocalStorage, setChartFilter,
          storage_set, HOMEPAGE_CHART_FILTER, s1.
        cbn. by rewrite insert_insert_eq.
  - rewrite step_unfold.
    destruct (tabs_rendered s && offered p (chartFilter s)); [|done].
    cbn zeta. by rewrite String.eqb_refl.
Qed.

(** ** The requests of the tabs *)

Lemma string_of_Z_parses n :
  NilZero.int_of_string (string_of_Z n) = Some (Z.to_int n).
Proof.
  destruct (to_int_not_nil n) as [H1 H2]. by apply NilZero.isi.
Qed.

Lemma string_of_Z_not_undefined n : string_of_Z n ≠ "undefined".
Proof.
  intros E. pose proof (string_of_Z_parses n) as H.
  rewrite E in H. discriminate H.
Qed.

(** X4.  The filter of the Mine request tells the users apart: two
    sets of props give the same Mine filter exactly when they agree on
    whether there is a user and, if there is, on the user's id. *)
Theorem mine_filter_identifies_user p p' :
  getFilters p "Mine" = getFilters p' "Mine"
  ↔ userId <$> user p = userId <$> user p'.
Proof.
  unfold getFilters. cbn [String.eqb Ascii.eqb Bool.eqb].
  destruct (user p) as [[u]|], (user p') as [[u']|]; cbn; split; intros H.
  - injection H as H. apply string_of_Z_inj in H. by subst.
  - by injection H as ->.
  - injection H as H. by apply string_of_Z_not_undefined in H.
  - discriminate.
  - injection H as H. symmetry in H. by apply string_of_Z_not_undefined in H.
  - discriminate.
  - done.
  - done.
Qed.

Lemma offered_Favorite p : offered p "Favorite" = true.
Proof. unfold offered, menuTabs. by case_bool_decide. Qed.

(** On the tabs of the submenu the request determines the tab. *)
Lemma offered_request_inj p a b :
  offered p a = true → offered p b = true →
  getData_config p a = getData_config p b → a = b.
Proof.
  intros Ha Hb E.
  assert (Hf : getFilters p a = getFilters p b) by by injection E.
  apply offered_tabs in Ha as [->|[->|[-> _]]];
    apply offered_tabs in Hb as [->|[->|[-> _]]];
    done.
Qed.

(** X5.  The three tabs ask for three different requests: for two
    different tabs of the submenu the arguments [getData] passes to
    [fetchData] differ.  (A filter name that is no tab's name, which only
    the storage can supply, is requested like Examples, unfiltered.) *)
Theorem tabs_have_distinct_requests p a b :
  offered p a = true → offered p b = true → a ≠ b →
  getData_config p a ≠ getData_config p b
  ∧ ∀ other, other ≠ "Mine" → other ≠ "Favorite" →
             getData_config p other = getData_config p "Examples".
Proof.
  intros Ha Hb Hne. split.
  - intros E. by apply Hne, (offered_request_inj p).
  - intros other H1 H2. unfold getData_config, getFilters.
    apply String.eqb_neq in H1, H2. by rewrite H1, H2.
Qed.

Lemma tabs_have_distinct_requests_witness :
  getData_config props_with_examples "Favorite"
  ≠ getData_config props_with_examples "Examples".
Proof.
  apply (tabs_have_distinct_requests props_with_examples
           "Favorite" "Examples"); [reflexivity | reflexivity | discriminate].
Defined.

(** ** The cards *)

(** X6.  When the ids of the charts are numbers and no two charts have
    the same id, no two cards have the same key.  The restriction to
    numbers is needed: the key is the id's rendering as a string, and a
    number and the string of its digits render alike. *)
Theorem card_keys_distinct p s :
  Forall (λ id, ∃ n, id = JNum n) (chartIds s) →
  NoDup (chartIds s) →
  NoDup (map card_key (map (card p s) (charts s)))
  ∧ ∀ n, template (JNum n) = template (JStr (string_of_Z n)).
Proof.
  intros Hnum Hnd. split; [|done].
  rewrite map_map. unfold chartIds in *.
  change (map (λ x, card_key (card p s x)) (charts s))
    with (map (λ x, template (prop "id" x)) (charts s)).
  rewrite <- (map_map (prop "id") template).
  apply NoDup_fmap_2_strong; [|done].
  intros a b Ha Hb E.
  rewrite Forall_forall in Hnum.
  destruct (Hnum a Ha) as [n ->], (Hnum b Hb) as [m ->].
  cbn in E. by apply string_of_Z_inj in E as ->.
Qed.

Lemma card_keys_distinct_witness :
  chartIds two_cards = [JNum 1; JNum 2]
  ∧ NoDup (map card_key
             (map (card props_with_examples two_cards) (charts two_cards))).
Proof.
  split; [reflexivity|].
  apply (card_keys_distinct props_with_examples two_cards).
  - apply Forall_cons. split; [by exists 1%Z|].
    apply Forall_cons. split; [by exists 2%Z|]. apply Forall_nil_2.
  - apply NoDup_cons. split.
    + intros H. apply list_elem_of_singleton in H. discriminate H.
    + apply NoDup_singleton.
Defined.

(** ** The tabs a run can reach *)

Lemma step_tab_offered p e s :
  chartFilter (step p e s) = chartFilter s
  ∨ offered p (chartFilter (step p e s)) = true.
Proof.
  rewrite step_unfold.
  destruct e as [tab|k r|cs| |c|ed|].
  - destruct (tabs_rendered s); [|by left]. cbn [andb].
    destruct (offered p tab) eqn:Hoff; [|by left]. cbn zeta.
    right. destruct (String.eqb _ _); [done|]. by rewrite effect_chartFilter.
  - left. unfold fetchData_settled. by destruct (inflight s !! k).
  - left. by destruct (cards_rendered s).
  - left. by destruct (exports s).
  - left. by destruct (cards_rendered s).
  - left. by destruct (modal_rendered s).
  - left. by destruct (modal_rendered s).
Qed.

Lemma run_tab_offered p es s :
  chartFilter (run p es s) = chartFilter s
  ∨ offered p (chartFilter (run p es s)) = true.
Proof.
  revert s. induction es as [|e es IH]; intros s; [by left|].
  rewrite run_cons. destruct (IH (step p e s)) as [->|?]; [|by right].
  apply step_tab_offered.
Qed.

(** X7.  The active tab is always the one the component was mounted on
    or one of the tabs of the submenu.  So without the [examples] prop a
    component that is not on "Examples" never gets there, whatever
    happens: the tab it may have been mounted on is gone for good once
    the user has left it. *)
Theorem active_tab_is_offered p st es :
  (chartFilter (run p es (mount p st)) = chartFilter (mount p st)
   ∨ chartFilter (run p es (mount p st))
     ∈ map name (menuTabs (examples p)))
  ∧ (examples p = None →
     ∀ s, chartFilter s ≠ "Examples" →
          chartFilter (run p es s) ≠ "Examples").
Proof.
  split.
  - destruct (run_tab_offered p es (mount p st)) as [?|Hoff]; [by left|].
    right. rewrite menuTabs_names.
    apply offered_tabs in Hoff as [->|[->|[-> Hex]]].
    + case_bool_decide; set_solver.
    + case_bool_decide; set_solver.
    + rewrite bool_decide_eq_true_2 by done. set_solver.
  - intros Hex s Hs.
    destruct (run_tab_offered p es s) as [->|Hoff]; [done|].
    intros E. rewrite E in Hoff. unfold offered in Hoff.
    rewrite Hex in Hoff. discriminate Hoff.
Qed.

(** ** The export indicator *)

Lemma step_export_outstanding p e s :
  (preparingExport s = true → exports s ≠ []) →
  preparingExport (step p e s) = true → exports (step p e s) ≠ [].
Proof.
  intros Hs. rewrite step_unfold.
  destruct e as [tab|k r|cs| |c|ed|].
  - destruct (tabs_rendered s && offered p tab); [|done].
    cbn zeta. destruct (String.eqb _ _); [done|].
    by rewrite effect_preparingExport, effect_exports.
  - unfold fetchData_settled. by destruct (inflight s !! k).
  - destruct (cards_rendered s); [|done]. intros _. cbn.
    by destruct (exports s).
  - intros Hp. destruct (exports s) as [|x xs] eqn:Hx.
    + rewrite <- Hx. rewrite <- Hx in Hs. by apply Hs.
    + cbn in Hp. discriminate Hp.
  - by destruct (cards_rendered s).
  - by destruct (modal_rendered s).
  - by destruct (modal_rendered s).
Qed.

(** X8.  The export indicator is never up without an export whose
    callback is still to come: in every state a mounted component can
    reach, [preparingExport] implies an outstanding export. *)
Theorem export_indicator_has_export p st es :
  preparingExport (run p es (mount p st)) = true →
  exports (run p es (mount p st)) ≠ [].
Proof.
  assert (H0 : preparingExport (mount p st) = true → exports (mount p st) ≠ []).
  { unfold mount. by rewrite effect_preparingExport. }
  revert H0. generalize (mount p st).
  induction es as [|e es IH]; intros s Hs; [done|].
  rewrite run_cons. by apply IH, step_export_outstanding.
Qed.

Lemma export_indicator_has_export_witness :
  exports (run props_with_examples [BulkExport [chart_bar]]
             (mount props_with_examples (stored "Examples"))) ≠ [].
Proof.
  apply (export_indicator_has_export props_with_examples
           (stored "Examples") [BulkExport [chart_bar]]).
  reflexivity.
Defined.

(** X9.  The converse fails, as the code has no guard against a second
    export: when two exports are started from the cards before either
    has completed, the first completion takes the indicator down while
    the view is still waiting for the callback of the other. *)
Theorem overlapping_exports p s cs1 cs2 :
  cards_rendered s = true →
  preparingExport
    (run p [BulkExport cs1; BulkExport cs2; ExportCompleted] s) = false
  ∧ length (exports (run p [BulkExport cs1; BulkExport cs2; ExportCompleted] s))
    = S (length (exports s))
  ∧ last (exports (run p [BulkExport cs1; BulkExport cs2; ExportCompleted] s))
    = Some (map (prop "id") cs2).
Proof.
  intros Hc. unfold run. cbn [fold_left].
  assert (H1 : step p (BulkExport cs1) s = handleBulkChartExport cs1 s).
  { by rewrite step_unfold, Hc. }
  assert (H2 : step p (BulkExport cs2) (handleBulkChartExport cs1 s)
               = handleBulkChartExport cs2 (handleBulkChartExport cs1 s)).
  { rewrite step_unfold.
    change (cards_rendered (handleBulkChartExport cs1 s))
      with (cards_rendered s). by rewrite Hc. }
  rewrite H1, H2, step_unfold.
  set (s2 := handleBulkChartExport cs2 (handleBulkChartExport cs1 s)).
  assert (Hx : exports s2
               = (exports s ++ [map (prop "id") cs1]) ++ [map (prop "id") cs2])
    by reflexivity.
  destruct (exports s2) as [|x xs] eqn:Hx2.
  { by destruct (exports s). }
  unfold andThen, export_callback, export_completed, setPreparingExport.
  cbn [preparingExport exports]. rewrite Hx2. cbn [tail].
  assert (Hlen : length (x :: xs) = S (S (length (exports s)))).
  { rewrite Hx, !length_app. cbn. lia. }
  split_and!; [done | cbn in Hlen; lia |].
  assert (Hlast : last (x :: xs) = Some (map (prop "id") cs2)).
  { rewrite Hx. apply last_snoc. }
  destruct xs as [|y ys]; [cbn in Hlen; lia | exact Hlast].
Qed.

Lemma overlapping_exports_witness :
  preparingExport
    (run props_with_examples
       [BulkExport [chart_bar]; BulkExport [chart_bar]; ExportCompleted]
       (mount props_with_examples (stored "Examples"))) = false.
Proof.
  apply (overlapping_exports props_with_examples
           (mount props_with_examples (stored "Examples"))
           [chart_bar] [chart_bar]).
  reflexivity.
Defined.

(** ** The buttons of the submenu *)

Lemma getFilters_favorite p filterName :
  getFilters p filterName
  = [ {| filter_id := "id"; operator := "chart_is_favorite";
         value := JBool true |} ]
  ↔ filterName = "Favorite".
Proof.
  unfold getFilters. split.
  - destruct (String.eqb_spec filterName "Mine"); [discriminate|].
    destruct (String.eqb_spec filterName "Favorite"); [done|discriminate].
  - by intros ->.
Qed.

(** X10.  The submenu has two buttons; the first leaves for the chart
    creation page.  "View All" pushes the chart list filtered by
    favorites exactly when the request of the active tab is the
    is-favorite request, and the unfiltered chart list for every other
    tab, Mine included.  Once the component has fetched, that is exactly
    when the most recent request is the is-favorite request. *)
Theorem view_all_follows_filter p st es :
  ∃ target,
    map button_onClick (buttons (run p es (mount p st)))
    = [LocationAssign "/chart/add"; HistoryPush target]
    ∧ (target = "/chart/list/?filters=(favorite:!t)"
       ∨ target = "/chart/list/")
    ∧ (target = "/chart/list/?filters=(favorite:!t)"
       ↔ getFilters p (chartFilter (run p es (mount p st)))
         = [ {| filter_id := "id"; operator := "chart_is_favorite";
                value := JBool true |} ])
    ∧ (requested (run p es (mount p st)) ≠ [] →
       (target = "/chart/list/?filters=(favorite:!t)"
        ↔ ∃ cfg, last (requested (run p es (mount p st))) = Some cfg
                 ∧ filters cfg
                   = [ {| filter_id := "id"; operator := "chart_is_favorite";
                          value := JBool true |} ])).
Proof.
  pose proof (run_in_step p es _ (proj1 (mount_in_step p st)))
    as (_ & Hlast & _).
  set (s := run p es (mount p st)) in *.
  unfold buttons. cbn [map button_onClick].
  destruct (String.eqb_spec (chartFilter s) "Favorite") as [E|Hne].
  - eexists. split; [reflexivity|]. split; [by left|]. split.
    + by rewrite getFilters_favorite.
    + intros Hreq. destruct Hlast as [?|Hlast]; [done|].
      split; [|done]. intros _. eexists. split; [exact Hlast|].
      by rewrite E.
  - eexists. split; [reflexivity|]. split; [by right|]. split.
    + rewrite getFilters_favorite. by split.
    + intros Hreq. destruct Hlast as [?|Hlast]; [done|].
      split; [done|]. intros (cfg & Hcfg & Hf).
      rewrite Hlast in Hcfg. injection Hcfg as <-.
      cbn [filters getData_config] in Hf.
      by apply getFilters_favorite in Hf.
Qed.

(** ** The initial tab is a name *)

Lemma initialFilter_not_empty filterStore ex : initialFilter filterStore ex ≠ "".
Proof.
  unfold initialFilter.
  destruct (_ && _); [discriminate|].
  destruct filterStore as [v|]; cbn; [|discriminate].
  destruct (String.eqb_spec v ""); cbn; [discriminate|done].
Qed.

(** X11.  An empty string in the storage counts as nothing stored: the
    component then mounts on "Examples".  The active tab is never the
    empty string, on mount or later. *)
Theorem active_tab_not_empty p st es :
  chartFilter (run p es (mount p st)) ≠ ""
  ∧ (getFromLocalStorage HOMEPAGE_CHART_FILTER None st = Some "" →
     chartFilter (mount p st) = "Examples").
Proof.
  split.
  - destruct (run_tab_offered p es (mount p st)) as [->|Hoff].
    + rewrite mount_chartFilter. apply initialFilter_not_empty.
    + by apply offered_tabs in Hoff as [->|[->|[-> _]]].
  - intros Hget. rewrite mount_chartFilter, Hget.
    unfold initialFilter. cbn.
    by rewrite andb_false_r.
Qed.

(** ** The collection *)

(** X13.  Only a successful answer to a fetch and a save in the edit
    modal change the collection.  A click on a tab in particular leaves
    the charts of the tab before in place. *)
Theorem collection_frame p e s :
  charts (step p e s) = charts s
  ∨ (∃ k items, e = FetchSettled k (Some items)
                ∧ charts (step p e s) = items)
  ∨ (∃ edits, e = SaveEdit edits).
Proof.
  rewrite step_unfold.
  destruct e as [tab|k r|cs| |c|ed|].
  - left. destruct (tabs_rendered s && offered p tab); [|done].
    cbn zeta. destruct (String.eqb _ _); [done|]. by rewrite effect_charts.
  - unfold fetchData_settled.
    destruct (inflight s !! k); [|by left].
    destruct r as [items|]; [|by left].
    right. left. by exists k, items.
  - left. by destruct (cards_rendered s).
  - left. by destruct (exports s).
  - left. by destruct (cards_rendered s).
  - right. right. by exists ed.
  - left. by destruct (modal_rendered s).
Qed.

(** ** No request twice in a row *)

Lemma no_repeat_snoc {A} (l : list A) x :
  no_repeat l → (∀ y, last l = Some y → y ≠ x) → no_repeat (l ++ [x]).
Proof.
  intros Hl Hx i a b Ha Hb.
  destruct (decide (S i < length l)) as [Hlt|Hge].
  - rewrite lookup_app_l in Ha by lia. rewrite lookup_app_l in Hb by lia.
    by apply (Hl i).
  - destruct (decide (S i = length l)) as [E|Hne].
    + rewrite lookup_app_l in Ha by lia.
      rewrite lookup_app_r in Hb by lia.
      replace (S i - length l) with 0 in Hb by lia. injection Hb as <-.
      apply Hx. rewrite last_lookup, <- E. exact Ha.
    + apply lookup_lt_Some in Hb. rewrite length_app in Hb. cbn in Hb. lia.
Qed.

Lemma mount_fetches_in_order p st : fetches_in_order p (mount p st).
Proof.
  unfold fetches_in_order.
  rewrite mount_loaded, mount_chartFilter. unfold mount.
  set (s0 := Build_State _ _ _ _ _ _ _ _ _ _ _).
  destruct (loaded s0 || String.eqb (chartFilter s0) "Favorite") eqn:Hcond.
  - destruct (effect_fetches p s0 Hcond) as (-> & _ & _).
    cbn [loaded chartFilter s0 orb] in Hcond.
    apply String.eqb_eq in Hcond.
    split_and!; [done| |].
    + right. cbn [requested chartFilter s0 app last].
      split; [done|]. rewrite Hcond. apply offered_Favorite.
    + intros i a b Ha Hb. by destruct i.
  - destruct (effect_idle p s0 Hcond) as (-> & _ & _).
    split_and!; [done | by left | ]. intros i a b Ha. done.
Qed.

Lemma step_fetches_in_order p e s :
  fetches_in_order p s → fetches_in_order p (step p e s).
Proof.
  intros Hs. pose proof Hs as (Hl & Hlast & Hnr). rewrite step_unfold.
  destruct e as [tab|k r|cs| |c|ed|].
  - destruct (tabs_rendered s); [|done]. cbn [andb].
    destruct (offered p tab) eqn:Hoff; [|done]. cbn zeta.
    destruct (String.eqb_spec tab (chartFilter s)) as [->|Hne]; [done|].
    set (s' := (setChartFilter tab >> _) s).
    destruct (effect_fetches p s') as (Hr & _ & _).
    { cbn. by rewrite Hl. }
    unfold fetches_in_order.
    rewrite effect_loaded, effect_chartFilter, Hr.
    cbn [requested chartFilter s' andThen setChartFilter setInLocalStorage].
    split_and!; [done| |].
    + right. by rewrite last_snoc.
    + apply no_repeat_snoc; [done|]. intros y Hy E.
      destruct Hlast as [Hnil|[Hlast Hoff']]; [by rewrite Hnil in Hy|].
      rewrite Hlast in Hy. injection Hy as <-.
      by apply offered_request_inj in E.
  - unfold fetchData_settled. by destruct (inflight s !! k).
  - by destruct (cards_rendered s).
  - by destruct (exports s).
  - by destruct (cards_rendered s).
  - by destruct (modal_rendered s).
  - by destruct (modal_rendered s).
Qed.

(** X12.  The component never asks for the same thing twice in a row:
    in the log of its [fetchData] calls no request is followed by an
    equal one, since a fetch needs a change of tab and different tabs
    have different requests. *)
Theorem no_request_twice_in_a_row p st es i a b :
  requested (run p es (mount p st)) !! i = Some a →
  requested (run p es (mount p st)) !! S i = Some b →
  a ≠ b.
Proof.
  assert (H : fetches_in_order p (run p es (mount p st))).
  { generalize (mount_fetches_in_order p st). generalize (mount p st).
    induction es as [|e es IH]; intros s Hs; [done|].
    rewrite run_cons. by apply IH, step_fetches_in_order. }
  destruct H as (_ & _ & Hnr). apply Hnr.
Qed.

Lemma no_request_twice_in_a_row_witness :
  getData_config props_with_examples "Favorite"
  ≠ getData_config props_with_examples "Mine".
Proof.
  apply (no_request_twice_in_a_row props_with_examples (stored "Mine")
           [ClickTab "Favorite"; FetchSettled 0 (Some [chart_bar]);
            ClickTab "Mine"] 0); reflexivity.
Defined.

(** ** The fall-back is not written back *)

(** X14.  Mounting writes nothing.  So the fall-back from "Examples" to
    "Mine" of a mount without the [examples] prop stays out of the
    storage: a later mount that is given examples is on "Examples"
    again. *)
Theorem fallback_not_persisted p p' st :
  getFromLocalStorage HOMEPAGE_CHART_FILTER None st = Some "Examples" →
  examples p = None →
  is_Some (examples p') →
  storage (mount p st) = st
  ∧ chartFilter (mount p st) = "Mine"
  ∧ chartFilter (mount p' (storage (mount p st))) = "Examples".
Proof.
  intros Hget Hex [l Hex'].
  assert (Hst : storage (mount p st) = st).
  { unfold mount. by rewrite effect_storage. }
  rewrite Hst, !mount_chartFilter, Hget, Hex, Hex'. done.
Qed.

Lemma fallback_not_persisted_witness :
  chartFilter (mount props_without_examples (stored "Examples")) = "Mine"
  ∧ chartFilter
      (mount props_with_examples
         (storage (mount props_without_examples (stored "Examples"))))
    = "Examples".
Proof.
  destruct (fallback_not_persisted props_without_examples
              props_with_examples (stored "Examples") eq_refl eq_refl)
    as (_ & H1 & H2).
  { by eexists. }
  exact (conj H1 H2).
Defined.
